(** * Deep-Research-Agent: the research pipeline and its tool server

    A shallow embedding of [agents.py] and [server.py].

    The program is glue between three libraries that are not part of the
    repository: the LinkUp search client, the CrewAI agent framework and the
    FastMCP tool server.  Their behaviour is not fixed here: every call into
    them goes through an oracle of the record [Env], which may return a value
    or raise a Python exception, and which sees the whole history of the
    process.  The code of the repository itself (the search tool, the crew
    builder, the runner and the server entry point) is written out as
    computations in a state-and-exception monad over that history. *)

From Stdlib Require Import String List Bool Arith Lia.
Import ListNotations.
Open Scope string_scope.
Set Implicit Arguments.
Set Warnings "-register-all".

(* ================================================================= *)
(** ** Python values the program handles *)

(** A raised Python exception.  The handlers of the program are all of the
    form [except Exception as e] and use [str(e)] only, so an exception is
    its position in the class hierarchy (below [Exception], or a
    [BaseException] outside it, such as [KeyboardInterrupt] or [SystemExit])
    and its message. *)
Inductive PyExcClass : Type :=
| Exception
| BaseExceptionOnly.

Record PyExc : Type := mkExc {
  exc_class : PyExcClass;
  exc_str : string
}.

Definition isinstance_Exception (e : PyExc) : bool :=
  match exc_class e with
  | Exception => true
  | BaseExceptionOnly => false
  end.

(** The result of running a piece of Python: a value, or an exception on
    its way up the stack. *)
Inductive outcome (A : Type) : Type :=
| Returned (a : A)
| Raised (e : PyExc).
Arguments Returned {A} a.
Arguments Raised {A} e.

(** Object identity ([id(obj)]): every constructor call yields a new one. *)
Definition oid := nat.

(** [LLM(model=..., base_url=..., api_key=...)] *)
Record LLM : Type := mkLLM {
  llm_id : oid;
  model : string;
  base_url : string;
  api_key : string
}.

(** [class LinkUpSearchInput(BaseModel)]: the argument schema of the tool,
    with the defaults of its [Field]s. *)
Record LinkUpSearchInput : Type := mkInput {
  query : string;
  depth : string;
  output_type : string
}.

Definition default_depth : string := "standard".
Definition default_output_type : string := "structured".

(** An instance of [class LinkUpSearchTool(BaseTool)]; [name] and
    [description] are the class attributes. *)
Record LinkUpSearchTool : Type := mkTool {
  tool_id : oid;
  name : string;
  description : string
}.

(** [Agent(role=..., goal=..., backstory=..., verbose=..., allow_delegation=...,
    tools=..., llm=...)].  An agent built without [tools=] has none. *)
Record Agent : Type := mkAgent {
  agent_id : oid;
  role : string;
  goal : string;
  backstory : string;
  agent_verbose : bool;
  allow_delegation : bool;
  agent_tools : list LinkUpSearchTool;
  agent_llm : LLM
}.

(** The [tool_choice] dict of a task: [{"name": ..., "arguments": {...}}];
    the inner dict is kept as the list of its items, in source order. *)
Record ToolChoice : Type := mkToolChoice {
  choice_name : string;
  choice_arguments : list (string * string)
}.

(** [Task(description=..., agent=..., expected_output=..., tools=...,
    tool_choice=..., context=...)].  A keyword the call does not pass is
    [None] (for [tools]: the empty list).  [context] holds the upstream task
    objects themselves. *)
Inductive Task : Type := mkTask {
  task_id : oid;
  task_description : string;
  agent : Agent;
  expected_output : string;
  task_tools : list LinkUpSearchTool;
  tool_choice : option ToolChoice;
  context : option (list Task)
}.

(** [Process.sequential] and its sibling in the framework's enum. *)
Inductive Process : Type :=
| sequential
| hierarchical.

(** [Crew(agents=..., tasks=..., verbose=..., process=...)] *)
Record Crew : Type := mkCrew {
  crew_id : oid;
  agents : list Agent;
  tasks : list Task;
  crew_verbose : bool;
  process : Process
}.

(** What [crew.kickoff()] returns; the runner reads [.raw]. *)
Record CrewOutput : Type := mkCrewOutput {
  raw : string;
  tasks_output : list (oid * string)
}.

(** The client object of the search provider. *)
Record LinkupClient : Type := mkClient {
  client_api_key : option string
}.

(* ================================================================= *)
(** ** The process: history and allocator *)

Inductive stream : Type :=
| Stdin
| Stdout
| Stderr.

(** The constructor calls the program makes into library code. *)
Inductive ctor : Type :=
| NewLinkUpSearchTool
| NewLLM (model base_url api_key : string)
| NewAgent (role : string)
| NewTask (description : string)
| NewCrew.

(** Observable steps of a run, in the order they happen. *)
Inductive event : Type :=
| EvConstruct (c : ctor)
| EvPrint (s : stream) (line : string)
| EvLinkupClient (api_key : option string)
| EvLinkupSearch (query depth output_type : string)
| EvToolResult (tool : string) (result : string)
| EvTaskStart (t : oid) (role : string) (context : list string)
| EvTaskEnd (t : oid) (output : string).

Record World : Type := mkWorld {
  trace : list event;
  next_id : oid
}.

Definition log (ev : event) (w : World) : World :=
  {| trace := trace w ++ [ev]; next_id := next_id w |}.

(** The environment: the process environment variables and the behaviour of
    the three libraries.  An oracle is consulted after its call has been
    logged, and may depend on everything that happened so far. *)
Record Env : Type := mkEnv {
  (** [os.getenv(name)] *)
  os_getenv : string -> option string;
  (** a library constructor: [None] when it completes, [Some e] when it
      raises [e] *)
  ext_construct : ctor -> World -> option PyExc;
  (** [LinkupClient(api_key=...)] *)
  LinkupClient_init : option string -> World -> option PyExc;
  (** [str(linkup_client.search(query=..., depth=..., output_type=...))] *)
  LinkupClient_search :
    LinkupClient -> string -> string -> string -> World -> outcome string;
  (** one agent working on one task: the model's answer, given the texts of
      the upstream tasks and the result of the pre-selected tool call *)
  agent_execute :
    Agent -> Task -> list string -> option string -> World -> outcome string
}.

(* ================================================================= *)
(** ** The monad of Python computations *)

Definition M (A : Type) : Type := World -> outcome A * World.

Definition ret {A} (a : A) : M A := fun w => (Returned a, w).

Definition raise {A} (e : PyExc) : M A := fun w => (Raised e, w).

Definition bind {A B} (m : M A) (f : A -> M B) : M B :=
  fun w =>
    match m w with
    | (Returned a, w') => f a w'
    | (Raised e, w') => (Raised e, w')
    end.

Notation "x <- m ;; k" := (bind m (fun x => k))
  (at level 61, m at next level, right associativity).
Notation "m ;;; k" := (bind m (fun _ => k))
  (at level 61, right associativity).

(** [try: body  except Exception as e: handler(e)].  An exception outside
    the [Exception] hierarchy is not handled and keeps propagating. *)
Definition try_except {A} (body : M A) (handler : PyExc -> M A) : M A :=
  fun w =>
    match body w with
    | (Returned a, w') => (Returned a, w')
    | (Raised e, w') =>
        if isinstance_Exception e then handler e w' else (Raised e, w')
    end.

(** The line break [print] ends its output with. *)
Definition newline : string := String (Ascii.ascii_of_nat 10) EmptyString.

(** The standard output of the process as [print] meets it: writing a text
    goes through, or raises (a closed or broken stream, a character the
    encoding of the stream cannot represent).  The answer may depend on the
    text and on everything that happened so far. *)
Record Stdout_stream : Type := mkStdout {
  stdout_write : string -> World -> option PyExc
}.

(** A standard output that accepts every write. *)
Definition writable : Stdout_stream :=
  {| stdout_write := fun _ _ => None |}.

(** [print(text)] on the standard output [out]: the text and a line break
    are written; when the write raises, so does [print], and nothing was
    printed. *)
Definition print_on (out : Stdout_stream) (text : string) : M unit :=
  fun w =>
    match stdout_write out (text ++ newline) w with
    | Some e => (Raised e, w)
    | None => (Returned tt, log (EvPrint Stdout text) w)
    end.

(** [print(text)] in a process whose standard output accepts every write. *)
Definition print (line : string) : M unit :=
  print_on writable line.

Definition emit (ev : event) : M unit :=
  fun w => (Returned tt, log ev w).

(** A library constructor: the call is logged, may raise, and otherwise
    hands out a fresh object identity. *)
Definition new (E : Env) (c : ctor) : M oid :=
  fun w =>
    let w1 := log (EvConstruct c) w in
    match ext_construct E c w1 with
    | Some e => (Raised e, w1)
    | None => (Returned (next_id w1),
               {| trace := trace w1; next_id := S (next_id w1) |})
    end.

(** A library call that does not allocate. *)
Definition call {A} (ev : event) (oracle : World -> outcome A) : M A :=
  fun w => let w1 := log ev w in (oracle w1, w1).

Definition outcome_of_init (c : LinkupClient) (r : option PyExc)
  : outcome LinkupClient :=
  match r with
  | Some e => Raised e
  | None => Returned c
  end.

(* ================================================================= *)
(** ** agents.py *)

(** [def get_llm_client()] *)
Definition get_llm_client (E : Env) : M LLM :=
  i <- new E (NewLLM "ollama/tinyllama:1.1b-chat" "http://localhost:11434" "ollama") ;;
  ret {| llm_id := i;
         model := "ollama/tinyllama:1.1b-chat";
         base_url := "http://localhost:11434";
         api_key := "ollama" |}.

Module LinkUpSearchTool.

(** [def __init__(self): super().__init__()] *)
Definition __init__ (E : Env) : M LinkUpSearchTool :=
  i <- new E NewLinkUpSearchTool ;;
  ret {| tool_id := i;
         name := "LinkUp Search";
         description :=
           "Search the web for information using LinkUp and return comprehensive results" |}.

(** The body of the [try] block of [_run], printing to [out]. *)
Definition _run_body_on (out : Stdout_stream) (E : Env)
    (query depth output_type : string) : M string :=
  print_on out ("[🔍 LinkUp Search] Searching for: " ++ query) ;;;
  linkup_client <-
    call (EvLinkupClient (os_getenv E "LINKUP_API_KEY"))
         (fun w => outcome_of_init
                     (mkClient (os_getenv E "LINKUP_API_KEY"))
                     (LinkupClient_init E (os_getenv E "LINKUP_API_KEY") w)) ;;
  result <-
    call (EvLinkupSearch query depth output_type)
         (LinkupClient_search E linkup_client query depth output_type) ;;
  ret result.

(** [def _run(self, query, depth="standard", output_type="structured")], in
    a process whose standard output is [out]. *)
Definition _run_on (out : Stdout_stream) (E : Env)
    (query depth output_type : string) : M string :=
  try_except
    (_run_body_on out E query depth output_type)
    (fun e => ret ("Error during LinkUp search: " ++ exc_str e)).

(** The same two in a process whose standard output accepts every write;
    the statements about whole runs of the pipeline are about such a
    process. *)
Definition _run_body (E : Env) (query depth output_type : string) : M string :=
  _run_body_on writable E query depth output_type.

Definition _run (E : Env) (query depth output_type : string) : M string :=
  _run_on writable E query depth output_type.

End LinkUpSearchTool.

(** Modelled from the spec: the [Agent] constructor of the agent framework,
    library code outside the repository.  The agent gets a fresh identity
    and keeps the keywords it was given: role, goal, backstory, delegation
    flag, tools and model client (4.2). *)
Definition new_Agent (E : Env) (role goal backstory : string)
    (verbose allow_delegation : bool) (tools : list LinkUpSearchTool)
    (llm : LLM) : M Agent :=
  i <- new E (NewAgent role) ;;
  ret {| agent_id := i; role := role; goal := goal; backstory := backstory;
         agent_verbose := verbose; allow_delegation := allow_delegation;
         agent_tools := tools; agent_llm := llm |}.

(** Modelled from the spec: the [Task] constructor of the agent framework,
    library code outside the repository.  The task gets a fresh identity
    and keeps the keywords it was given.  That a built task carries its
    [tool_choice], the pre-filled tool invocation arguments, is the spec's
    account of the search task (4.2); no line of the repository reads the
    field back. *)
Definition new_Task (E : Env) (description : string) (agent : Agent)
    (expected_output : string) (tools : list LinkUpSearchTool)
    (tool_choice : option ToolChoice) (context : option (list Task)) : M Task :=
  i <- new E (NewTask description) ;;
  ret {| task_id := i; task_description := description; agent := agent;
         expected_output := expected_output; task_tools := tools;
         tool_choice := tool_choice; context := context |}.

(** Modelled from the spec: the [Crew] constructor of the agent framework;
    the crew gets a fresh identity and keeps its agents, its tasks and its
    process kind (4.2). *)
Definition new_Crew (E : Env) (agents : list Agent) (tasks : list Task)
    (verbose : bool) (process : Process) : M Crew :=
  i <- new E NewCrew ;;
  ret {| crew_id := i; agents := agents; tasks := tasks;
         crew_verbose := verbose; process := process |}.

(** [def create_research_crew(query: str)] *)
Definition create_research_crew (E : Env) (query : string) : M Crew :=
  linkup_tool <- LinkUpSearchTool.__init__ E ;;
  client <- get_llm_client E ;;
  web_searcher <-
    new_Agent E "Web Searcher"
      "Find the most relevant information on the web, with source links."
      "An expert at searching and gathering high-quality online information."
      true true [linkup_tool] client ;;
  research_analyst <-
    new_Agent E "Research Analyst"
      "Analyze and synthesize information from search results."
      "A critical thinker who transforms raw data into structured insights."
      true true [] client ;;
  technical_writer <-
    new_Agent E "Technical Writer"
      "Answer the user's original query in a clear, fact-based, and simple manner using the research analysis. Always include relevant examples and cite sources."
      "An expert communicator who explains complex topics in simple words for a general audience."
      true false [] client ;;
  search_task <-
    new_Task E ("Search for information about: '" ++ query ++ "' using LinkUp.")
      web_searcher
      "Raw search results with sources (urls)."
      [linkup_tool]
      (Some {| choice_name := "LinkUp Search";
               choice_arguments := [ ("query", query);
                                     ("depth", "standard");
                                     ("output_type", "structured") ] |})
      None ;;
  analysis_task <-
    new_Task E "Analyze the search results, extract important insights, verify facts."
      research_analyst
      "Verified insights with relevant sources."
      [] None (Some [search_task]) ;;
  writing_task <-
    new_Task E "Create a final markdown response based on analysis."
      technical_writer
      "Well-structured answer with citations and clear explanations."
      [] None (Some [analysis_task]) ;;
  crew <-
    new_Crew E [web_searcher; research_analyst; technical_writer]
      [search_task; analysis_task; writing_task]
      true sequential ;;
  ret crew.

(* ----------------------------------------------------------------- *)
(** *** The framework's executor *)

(** [d.get(key)] on the items of a dict. *)
Definition dict_get (key : string) (d : list (string * string)) : option string :=
  match find (fun kv => String.eqb (fst kv) key) d with
  | Some kv => Some (snd kv)
  | None => None
  end.

Definition or_default (o : option string) (d : string) : string :=
  match o with
  | Some s => s
  | None => d
  end.

(** A [LinkUpSearchInput] built from an arguments dict: the arguments of a
    tool call read through the schema of the tool.  [query] is required; [depth] and
    [output_type] fall back to their defaults, the same as those of [_run]'s
    signature. *)
Definition parse_arguments (d : list (string * string)) : option LinkUpSearchInput :=
  match dict_get "query" d with
  | None => None
  | Some q =>
      Some {| query := q;
              depth := or_default (dict_get "depth" d) default_depth;
              output_type := or_default (dict_get "output_type" d) default_output_type |}
  end.

(** Modelled from the spec: the pre-selected tool call of a task, a part of
    the framework's executor, which is library code outside the repository.
    The tool of the chosen name among the task's tools is run on the
    pre-filled arguments, and its result is handed to the agent as an
    ordinary tool result. *)
Definition invoke_tool (E : Env) (tools : list LinkUpSearchTool)
    (tc : ToolChoice) : M (option string) :=
  match find (fun t => String.eqb (name t) (choice_name tc)) tools with
  | None => ret None
  | Some t =>
      match parse_arguments (choice_arguments tc) with
      | None => raise (mkExc Exception "query: Field required")
      | Some a =>
          r <- LinkUpSearchTool._run E (query a) (depth a) (output_type a) ;;
          emit (EvToolResult (name t) r) ;;;
          ret (Some r)
      end
  end.

(** Modelled from the spec: the texts a task receives as context, a part of
    the framework's executor.  They are the outputs of the tasks of its
    [context] list, in that order; none when the list was not given. *)
Definition context_outputs (t : Task) (outs : list (oid * string)) : list string :=
  match context t with
  | None => []
  | Some ups =>
      flat_map (fun u =>
                  match find (fun p => Nat.eqb (fst p) (task_id u)) outs with
                  | Some p => [snd p]
                  | None => []
                  end) ups
  end.

(** Modelled from the spec: one stage of the framework's executor.  The
    task starts, its pre-selected tool call (if any) is made, its agent
    answers from the context and the tool result, and the task ends with
    that answer as its output. *)
Definition execute_task (E : Env) (t : Task) (outs : list (oid * string))
  : M string :=
  emit (EvTaskStart (task_id t) (role (agent t)) (context_outputs t outs)) ;;;
  tool_result <-
    match tool_choice t with
    | None => ret None
    | Some tc => invoke_tool E (task_tools t) tc
    end ;;
  out <- (fun w =>
            (agent_execute E (agent t) t (context_outputs t outs) tool_result w, w)) ;;
  emit (EvTaskEnd (task_id t) out) ;;;
  ret out.

(** Modelled from the spec: the sequential process of the framework's
    executor, task after task in list order, each output recorded under the
    identity of its task. *)
Fixpoint execute_tasks (E : Env) (ts : list Task) (outs : list (oid * string))
  : M (list (oid * string)) :=
  match ts with
  | [] => ret outs
  | t :: ts' =>
      out <- execute_task E t outs ;;
      execute_tasks E ts' (outs ++ [(task_id t, out)])
  end.

(** Modelled from the spec: [Crew.kickoff()], the executor of the agent
    framework, which is library code outside the repository.  Under
    [Process.sequential] the tasks run one after another in the order of the
    [tasks] list, each task's agent receiving the outputs of the task's
    upstream tasks as context; a task whose [tool_choice] names one of its
    tools has that tool invoked with the pre-filled arguments; the output of
    the last task is the [raw] text of the result.  There is no retry, no
    branch and no skip.  The other process kind needs a manager, which this
    crew does not have; the framework rejects it. *)
Definition kickoff (E : Env) (c : Crew) : M CrewOutput :=
  match process c with
  | sequential =>
      outs <- execute_tasks E (tasks c) [] ;;
      ret {| raw := last (map snd outs) ""; tasks_output := outs |}
  | hierarchical =>
      raise (mkExc Exception
               "Attribute `manager_llm` or `manager_agent` is required when using hierarchical process.")
  end.

(** The body of the [try] block of [run_research]. *)
Definition run_research_body (E : Env) (query : string) : M string :=
  crew <- create_research_crew E query ;;
  result <- kickoff E crew ;;
  ret (raw result).

(** [def run_research(query: str)] *)
Definition run_research (E : Env) (query : string) : M string :=
  try_except
    (run_research_body E query)
    (fun e => ret ("Error during crew execution: " ++ exc_str e)).

(* ================================================================= *)
(** ** server.py *)

Inductive PyType : Type :=
| PyStr
| PyInt
| PyBool.

Record ParamSpec : Type := mkParamSpec {
  param_name : string;
  annotation : PyType;
  required : bool
}.

(** One operation of a tool server: what [@mcp.tool()] records about the
    decorated function (its name, docstring and signature) and the function
    itself. *)
Record Operation : Type := mkOperation {
  op_name : string;
  op_doc : string;
  op_parameters : list ParamSpec;
  op_returns : PyType;
  op_fn : Env -> string -> M string
}.

Record FastMCP : Type := mkFastMCP {
  server_name : string;
  operations : list Operation
}.

Definition tool (srv : FastMCP) (op : Operation) : FastMCP :=
  {| server_name := server_name srv; operations := operations srv ++ [op] |}.

(** [async def crew_research(query: str) -> str: return run_research(query)].
    The coroutine awaits nothing: it calls the runner and returns its
    result. *)
Definition crew_research (E : Env) (query : string) : M string :=
  run_research E query.

(** What [@mcp.tool()] records for [crew_research]; [op_doc] is the summary
    line of its docstring. *)
Definition crew_research_op : Operation :=
  {| op_name := "crew_research";
     op_doc := "Run CrewAI-based research system for given user query. Can do both standard and deep web search.";
     op_parameters := [ {| param_name := "query"; annotation := PyStr; required := true |} ];
     op_returns := PyStr;
     op_fn := crew_research |}.

(** [mcp = FastMCP("crew_research")] followed by the one decorated function. *)
Definition mcp : FastMCP :=
  tool {| server_name := "crew_research"; operations := [] |} crew_research_op.



(* ================================================================= *)
(** ** Concrete environments *)

Definition world0 : World := {| trace := []; next_id := 0 |}.

(** Everything works: the credential is set, the provider answers, and each
    agent answers with a text that names its role and quotes its inputs. *)
Definition env_ok : Env :=
  {| os_getenv := fun _ => Some "secret";
     ext_construct := fun _ _ => None;
     LinkupClient_init := fun _ _ => None;
     LinkupClient_search := fun _ q _ _ _ => Returned ("results for " ++ q);
     agent_execute := fun a _ ctx tool_result _ =>
       Returned (role a ++ ": " ++ String.concat "|" ctx ++
                 or_default tool_result "") |}.

(** The credential is missing and the provider rejects the search; the
    model behind the agents answers from its own knowledge. *)
Definition env_search_down : Env :=
  {| os_getenv := fun _ => None;
     ext_construct := fun _ _ => None;
     LinkupClient_init := fun _ _ => None;
     LinkupClient_search := fun _ _ _ _ _ =>
       Raised (mkExc Exception "401 Unauthorized");
     agent_execute := fun a _ _ _ _ =>
       Returned ("Entanglement links the states of two particles.") |}.

(** The user interrupts the process while the crew is running. *)
Definition env_interrupted : Env :=
  {| os_getenv := fun _ => Some "secret";
     ext_construct := fun _ _ => None;
     LinkupClient_init := fun _ _ => None;
     LinkupClient_search := fun _ _ _ _ _ =>
       Raised (mkExc BaseExceptionOnly "KeyboardInterrupt");
     agent_execute := fun _ _ _ _ _ =>
       Raised (mkExc BaseExceptionOnly "KeyboardInterrupt") |}.

(** The model endpoint is unreachable: every agent call fails. *)
Definition env_model_down : Env :=
  {| os_getenv := fun _ => Some "secret";
     ext_construct := fun _ _ => None;
     LinkupClient_init := fun _ _ => None;
     LinkupClient_search := fun _ q _ _ _ => Returned ("results for " ++ q);
     agent_execute := fun _ _ _ _ _ =>
       Raised (mkExc Exception "Connection refused") |}.

(** The credential is missing and the client refuses to be built. *)
Definition env_no_credential : Env :=
  {| os_getenv := fun _ => None;
     ext_construct := fun _ _ => None;
     LinkupClient_init := fun k _ =>
       match k with
       | None => Some (mkExc Exception "The api_key client option must be set")
       | Some _ => None
       end;
     LinkupClient_search := fun _ q _ _ _ => Returned ("results for " ++ q);
     agent_execute := fun a _ _ tool_result _ =>
       Returned (or_default tool_result "") |}.

(* ================================================================= *)
(** ** Vocabulary of the statements *)

(** Python's [needle in hay] on strings. *)
Fixpoint contains (needle hay : string) : bool :=
  String.prefix needle hay ||
  match hay with
  | EmptyString => false
  | String _ hay' => contains needle hay'
  end.


Definition is_stage_event (ev : event) : bool :=
  match ev with
  | EvTaskStart _ _ _ | EvTaskEnd _ _ => true
  | _ => false
  end.

(** The events of the three stages, without the tool and library calls made
    inside them. *)
Definition stage_events (evs : list event) : list event :=
  filter is_stage_event evs.




(** The crew [create_research_crew] builds for [query] when the first
    identity it is handed is [n]: tool [n], model client [n+1], the agents
    [n+2..n+4], the tasks [n+5..n+7] and the crew [n+8]. *)
Section ResearchCrew.
Variable query : string.
Variable n : oid.

Definition the_tool : LinkUpSearchTool :=
  {| tool_id := n; name := "LinkUp Search";
     description :=
       "Search the web for information using LinkUp and return comprehensive results" |}.

Definition the_client : LLM :=
  {| llm_id := 1 + n; model := "ollama/tinyllama:1.1b-chat";
     base_url := "http://localhost:11434"; api_key := "ollama" |}.

Definition the_web_searcher : Agent :=
  {| agent_id := 2 + n; role := "Web Searcher";
     goal := "Find the most relevant information on the web, with source links.";
     backstory := "An expert at searching and gathering high-quality online information.";
     agent_verbose := true; allow_delegation := true;
     agent_tools := [the_tool]; agent_llm := the_client |}.

Definition the_research_analyst : Agent :=
  {| agent_id := 3 + n; role := "Research Analyst";
     goal := "Analyze and synthesize information from search results.";
     backstory := "A critical thinker who transforms raw data into structured insights.";
     agent_verbose := true; allow_delegation := true;
     agent_tools := []; agent_llm := the_client |}.

Definition the_technical_writer : Agent :=
  {| agent_id := 4 + n; role := "Technical Writer";
     goal := "Answer the user's original query in a clear, fact-based, and simple manner using the research analysis. Always include relevant examples and cite sources.";
     backstory := "An expert communicator who explains complex topics in simple words for a general audience.";
     agent_verbose := true; allow_delegation := false;
     agent_tools := []; agent_llm := the_client |}.

Definition the_tool_choice : ToolChoice :=
  {| choice_name := "LinkUp Search";
     choice_arguments := [ ("query", query);
                           ("depth", "standard");
                           ("output_type", "structured") ] |}.

Definition the_search_task : Task :=
  {| task_id := 5 + n;
     task_description := "Search for information about: '" ++ query ++ "' using LinkUp.";
     agent := the_web_searcher;
     expected_output := "Raw search results with sources (urls).";
     task_tools := [the_tool];
     tool_choice := Some the_tool_choice;
     context := None |}.

Definition the_analysis_task : Task :=
  {| task_id := 6 + n;
     task_description := "Analyze the search results, extract important insights, verify facts.";
     agent := the_research_analyst;
     expected_output := "Verified insights with relevant sources.";
     task_tools := []; tool_choice := None;
     context := Some [the_search_task] |}.

Definition the_writing_task : Task :=
  {| task_id := 7 + n;
     task_description := "Create a final markdown response based on analysis.";
     agent := the_technical_writer;
     expected_output := "Well-structured answer with citations and clear explanations.";
     task_tools := []; tool_choice := None;
     context := Some [the_analysis_task] |}.

Definition research_crew : Crew :=
  {| crew_id := 8 + n;
     agents := [the_web_searcher; the_research_analyst; the_technical_writer];
     tasks := [the_search_task; the_analysis_task; the_writing_task];
     crew_verbose := true; process := sequential |}.

(** The constructor calls of [create_research_crew], in source order. *)
Definition construction_calls : list ctor :=
  [ NewLinkUpSearchTool;
    NewLLM "ollama/tinyllama:1.1b-chat" "http://localhost:11434" "ollama";
    NewAgent "Web Searcher";
    NewAgent "Research Analyst";
    NewAgent "Technical Writer";
    NewTask ("Search for information about: '" ++ query ++ "' using LinkUp.");
    NewTask "Analyze the search results, extract important insights, verify facts.";
    NewTask "Create a final markdown response based on analysis.";
    NewCrew ].

Definition construction_events : list event :=
  map EvConstruct construction_calls.

End ResearchCrew.

(** No library constructor raises. *)
Definition constructors_succeed (E : Env) : Prop :=
  forall c w, ext_construct E c w = None.

(** The agents always come back with an answer. *)
Definition agents_answer (E : Env) : Prop :=
  forall a t ctx r w, exists s, agent_execute E a t ctx r w = Returned s.

(** The diagnostic line of [_run] and the two error strings, by name. *)
Definition search_line (q : string) : string :=
  "[🔍 LinkUp Search] Searching for: " ++ q.

Definition search_error (e : PyExc) : string :=
  "Error during LinkUp search: " ++ exc_str e.

Definition crew_error (e : PyExc) : string :=
  "Error during crew execution: " ++ exc_str e.

(** What [except Exception as e: return msg(e)] makes of a raised [e]. *)
Definition handled {A} (msg : PyExc -> A) (e : PyExc) (w : World) : outcome A * World :=
  if isinstance_Exception e then (Returned (msg e), w) else (Raised e, w).

(** Whether a task was given a [context] list. *)
Definition has_context (t : Task) : bool :=
  match context t with
  | Some _ => true
  | None => false
  end.

(** The stage events of a complete run on the crew whose first identity is
    [n], the stages answering [o1], [o2] and [o3]. *)
Definition pipeline_stages (n : oid) (o1 o2 o3 : string) : list event :=
  [ EvTaskStart (5 + n) "Web Searcher" [];
    EvTaskEnd (5 + n) o1;
    EvTaskStart (6 + n) "Research Analyst" [o1];
    EvTaskEnd (6 + n) o2;
    EvTaskStart (7 + n) "Technical Writer" [o2];
    EvTaskEnd (7 + n) o3 ].

(** What may follow the client construction inside the stages: the one
    search call, on the arguments of the task's tool choice, and the events
    of the framework; no second print, client or constructor call. *)
Definition after_client (q : string) (ev : event) : Prop :=
  match ev with
  | EvLinkupSearch q' d o => q' = q /\ d = "standard" /\ o = "structured"
  | EvToolResult _ _ | EvTaskStart _ _ _ | EvTaskEnd _ _ => True
  | EvConstruct _ | EvPrint _ _ | EvLinkupClient _ => False
  end.

(** The world the builder leaves when all nine constructors completed. *)
Definition built (q : string) (w : World) : World :=
  {| trace := trace w ++ construction_events q; next_id := 9 + next_id w |}.

(** [kickoff] on the research crew, written out: SEARCH, then ANALYZE, then
    WRITE, each stage stopping the run when it raises. *)
Definition stages (E : Env) (q : string) (n : oid) (w : World)
  : outcome CrewOutput * World :=
  let st := the_search_task q n in
  let at_ := the_analysis_task q n in
  let wt := the_writing_task q n in
  let w0 := log (EvTaskStart (5 + n) "Web Searcher" []) w in
  match LinkUpSearchTool._run E q "standard" "structured" w0 with
  | (Raised e, w1) => (Raised e, w1)
  | (Returned r, w1) =>
      let w2 := log (EvToolResult "LinkUp Search" r) w1 in
      match agent_execute E (agent st) st [] (Some r) w2 with
      | Raised e => (Raised e, w2)
      | Returned o1 =>
          let w3 := log (EvTaskStart (6 + n) "Research Analyst" [o1])
                        (log (EvTaskEnd (5 + n) o1) w2) in
          match agent_execute E (agent at_) at_ [o1] None w3 with
          | Raised e => (Raised e, w3)
          | Returned o2 =>
              let w4 := log (EvTaskStart (7 + n) "Technical Writer" [o2])
                            (log (EvTaskEnd (6 + n) o2) w3) in
              match agent_execute E (agent wt) wt [o2] None w4 with
              | Raised e => (Raised e, w4)
              | Returned o3 =>
                  (Returned {| raw := o3;
                               tasks_output := [(5 + n, o1); (6 + n, o2); (7 + n, o3)] |},
                   log (EvTaskEnd (7 + n) o3) w4)
              end
          end
      end
  end.

(** The search provider fails only with exceptions of class [Exception]
    (refused credentials, network errors, malformed responses): nothing it
    raises is an interrupt or an exit request. *)
Definition linkup_raises_only_Exception (E : Env) : Prop :=
  (forall k w e, LinkupClient_init E k w = Some e -> exc_class e = Exception)
  /\ (forall c q d o w e,
        LinkupClient_search E c q d o w = Raised e -> exc_class e = Exception).

(** The model endpoint fails every agent call with the message [m]. *)
Definition env_agents_fail (m : string) : Env :=
  {| os_getenv := fun _ => Some "secret";
     ext_construct := fun _ _ => None;
     LinkupClient_init := fun _ _ => None;
     LinkupClient_search := fun _ q _ _ _ => Returned ("results for " ++ q);
     agent_execute := fun _ _ _ _ _ => Raised (mkExc Exception m) |}.

(** The model behind the agents answers every task with the text [s]. *)
Definition env_agents_say (s : string) : Env :=
  {| os_getenv := fun _ => Some "secret";
     ext_construct := fun _ _ => None;
     LinkupClient_init := fun _ _ => None;
     LinkupClient_search := fun _ q _ _ _ => Returned ("results for " ++ q);
     agent_execute := fun _ _ _ _ _ => Returned s |}.

(** The framework rejects the Research Analyst: its constructor raises. *)
Definition env_analyst_rejected : Env :=
  {| os_getenv := fun _ => Some "secret";
     ext_construct := fun c _ =>
       match c with
       | NewAgent r =>
           if String.eqb r "Research Analyst"
           then Some (mkExc Exception "1 validation error for Agent")
           else None
       | _ => None
       end;
     LinkupClient_init := fun _ _ => None;
     LinkupClient_search := fun _ q _ _ _ => Returned ("results for " ++ q);
     agent_execute := fun a _ _ _ _ => Returned (role a) |}.

(** The stages from the moment the search tool has returned [r]: what is
    left of [stages] after the tool call. *)
Definition stages_after_tool (E : Env) (q : string) (n : oid) (r : string)
    (w1 : World) : outcome CrewOutput * World :=
  let st := the_search_task q n in
  let at_ := the_analysis_task q n in
  let wt := the_writing_task q n in
  let w2 := log (EvToolResult "LinkUp Search" r) w1 in
  match agent_execute E (agent st) st [] (Some r) w2 with
  | Raised e => (Raised e, w2)
  | Returned o1 =>
      let w3 := log (EvTaskStart (6 + n) "Research Analyst" [o1])
                    (log (EvTaskEnd (5 + n) o1) w2) in
      match agent_execute E (agent at_) at_ [o1] None w3 with
      | Raised e => (Raised e, w3)
      | Returned o2 =>
          let w4 := log (EvTaskStart (7 + n) "Technical Writer" [o2])
                        (log (EvTaskEnd (6 + n) o2) w3) in
          match agent_execute E (agent wt) wt [o2] None w4 with
          | Raised e => (Raised e, w4)
          | Returned o3 =>
              (Returned {| raw := o3;
                           tasks_output := [(5 + n, o1); (6 + n, o2); (7 + n, o3)] |},
               log (EvTaskEnd (7 + n) o3) w4)
          end
      end
  end.





(* ================================================================= *)
(** ** Running the monad by hand *)

Section Stepping.
Context {A B C : Type}.

Lemma bind_ret_l (a : A) (f : A -> M B) (w : World) :
  bind (ret a) f w = f a w.
Proof. reflexivity. Qed.

Lemma bind_raise (e : PyExc) (f : A -> M B) (w : World) :
  bind (raise e) f w = (Raised e, w).
Proof. reflexivity. Qed.

Lemma bind_assoc (m : M A) (f : A -> M B) (g : B -> M C) (w : World) :
  bind (bind m f) g w = bind m (fun x => bind (f x) g) w.
Proof. unfold bind. destruct (m w) as [[a | e] w']; reflexivity. Qed.

Lemma bind_Returned (m : M A) (f : A -> M B) (w w' : World) (a : A) :
  m w = (Returned a, w') -> bind m f w = f a w'.
Proof. unfold bind. now intros ->. Qed.

Lemma bind_Raised (m : M A) (f : A -> M B) (w w' : World) (e : PyExc) :
  m w = (Raised e, w') -> bind m f w = (Raised e, w').
Proof. unfold bind. now intros ->. Qed.

End Stepping.

Lemma bind_emit {B} (ev : event) (f : unit -> M B) (w : World) :
  bind (emit ev) f w = f tt (log ev w).
Proof. reflexivity. Qed.

Lemma bind_print {B} (line : string) (f : unit -> M B) (w : World) :
  bind (print line) f w = f tt (log (EvPrint Stdout line) w).
Proof. reflexivity. Qed.

Lemma bind_new {B} (E : Env) (c : ctor) (f : oid -> M B) (w : World) :
  bind (new E c) f w =
  match ext_construct E c (log (EvConstruct c) w) with
  | Some e => (Raised e, log (EvConstruct c) w)
  | None => f (next_id w)
              {| trace := trace w ++ [EvConstruct c]; next_id := S (next_id w) |}
  end.
Proof.
  unfold bind, new. destruct (ext_construct E c (log (EvConstruct c) w)); reflexivity.
Qed.

Lemma bind_call {A B} (ev : event) (oracle : World -> outcome A)
    (f : A -> M B) (w : World) :
  bind (call ev oracle) f w =
  match oracle (log ev w) with
  | Returned a => f a (log ev w)
  | Raised e => (Raised e, log ev w)
  end.
Proof. unfold bind, call. destruct (oracle (log ev w)); reflexivity. Qed.

Lemma try_except_Returned {A} (body : M A) (h : PyExc -> M A) (w w' : World) (a : A) :
  body w = (Returned a, w') -> try_except body h w = (Returned a, w').
Proof. unfold try_except. now intros ->. Qed.

Lemma try_except_Exception {A} (body : M A) (h : PyExc -> M A) (w w' : World) (e : PyExc) :
  body w = (Raised e, w') -> exc_class e = Exception ->
  try_except body h w = h e w'.
Proof.
  unfold try_except, isinstance_Exception. intros -> Hc. now rewrite Hc.
Qed.

Lemma try_except_BaseException {A} (body : M A) (h : PyExc -> M A) (w w' : World) (e : PyExc) :
  body w = (Raised e, w') -> exc_class e = BaseExceptionOnly ->
  try_except body h w = (Raised e, w').
Proof.
  unfold try_except, isinstance_Exception. intros -> Hc. now rewrite Hc.
Qed.

(** A handler that returns lets nothing of class [Exception] through. *)
Lemma try_except_escapes {A} (body : M A) (h : PyExc -> A) (w : World) (e : PyExc) :
  fst (try_except body (fun e => ret (h e)) w) = Raised e ->
  exc_class e = BaseExceptionOnly.
Proof.
  unfold try_except, isinstance_Exception, ret.
  destruct (body w) as [[a | e'] w']; cbn [fst]; [discriminate |].
  destruct (exc_class e') eqn:Hc; cbn [fst]; [discriminate |].
  intros [= <-]. exact Hc.
Qed.

Ltac mnorm :=
  repeat (cbv beta;
          first [ rewrite bind_assoc | rewrite bind_ret_l | rewrite bind_raise
                | rewrite bind_emit | rewrite bind_print ]).

Ltac tidy_world :=
  unfold log; cbn [trace next_id]; rewrite <- ?app_assoc; cbn [app].

(** [create_research_crew] either stops at the first constructor that raises,
    having made the calls up to and including that one, or returns the crew
    [research_crew] on the next nine identities. *)
Lemma create_research_crew_cases (E : Env) (q : string) (w : World) :
  (exists e k, k < 9 /\
     create_research_crew E q w =
       (Raised e, {| trace := trace w ++ firstn (S k) (construction_events q);
                     next_id := k + next_id w |}))
  \/ create_research_crew E q w =
       (Returned (research_crew q (next_id w)),
        {| trace := trace w ++ construction_events q; next_id := 9 + next_id w |}).
Proof.
  unfold create_research_crew, LinkUpSearchTool.__init__, get_llm_client,
    new_Agent, new_Task, new_Crew.
  do 9 (mnorm; rewrite bind_new;
        match goal with
        | |- context [ext_construct ?E' ?c ?w'] =>
            destruct (ext_construct E' c w') as [e |] eqn:?
        end;
        [ left; exists e;
          match goal with
          | |- exists k, _ /\ (_, ?W) = _ =>
              let n := eval cbn [next_id log] in (next_id W) in
              match n with
              | next_id w => exists 0
              | S (next_id w) => exists 1
              | S (S (next_id w)) => exists 2
              | S (S (S (next_id w))) => exists 3
              | S (S (S (S (next_id w)))) => exists 4
              | S (S (S (S (S (next_id w))))) => exists 5
              | S (S (S (S (S (S (next_id w)))))) => exists 6
              | S (S (S (S (S (S (S (next_id w))))))) => exists 7
              | S (S (S (S (S (S (S (S (next_id w)))))))) => exists 8
              end
          end;
          split; [lia | tidy_world; reflexivity]
        | ]).
  mnorm. right. unfold ret. tidy_world. reflexivity.
Qed.

(* ================================================================= *)
(** ** The search tool, case by case *)

Lemma bind_print_on {B} (out : Stdout_stream) (text : string)
    (f : unit -> M B) (w : World) :
  bind (print_on out text) f w =
  match stdout_write out (text ++ newline) w with
  | Some e => (Raised e, w)
  | None => f tt (log (EvPrint Stdout text) w)
  end.
Proof.
  unfold bind, print_on. destruct (stdout_write out (text ++ newline) w); reflexivity.
Qed.

(** [_run] on any standard output: the write of the diagnostic line, the
    client constructor and the search are tried in this order, and the
    first that raises decides. *)
Lemma _run_on_cases (out : Stdout_stream) (E : Env) (q d o : string) (w : World) :
  let k := os_getenv E "LINKUP_API_KEY" in
  let w1 := {| trace := trace w ++ [EvPrint Stdout (search_line q); EvLinkupClient k];
               next_id := next_id w |} in
  let w2 := {| trace := trace w ++ [EvPrint Stdout (search_line q); EvLinkupClient k;
                                    EvLinkupSearch q d o];
               next_id := next_id w |} in
  LinkUpSearchTool._run_on out E q d o w =
  match stdout_write out (search_line q ++ newline) w with
  | Some e => handled search_error e w
  | None =>
      match LinkupClient_init E k w1 with
      | Some e => handled search_error e w1
      | None =>
          match LinkupClient_search E (mkClient k) q d o w2 with
          | Returned s => (Returned s, w2)
          | Raised e => handled search_error e w2
          end
      end
  end.
Proof.
  cbv zeta.
  unfold LinkUpSearchTool._run_on, LinkUpSearchTool._run_body_on, try_except, handled.
  rewrite bind_print_on. fold (search_line q).
  destruct (stdout_write out _ w) as [e |]; [reflexivity |].
  cbv beta. rewrite bind_call. tidy_world.
  destruct (LinkupClient_init E _ _) as [e |]; cbn [outcome_of_init].
  - reflexivity.
  - mnorm. rewrite bind_call. tidy_world.
    destruct (LinkupClient_search E _ q d o _) as [s | e]; reflexivity.
Qed.

Lemma _run_cases (E : Env) (q d o : string) (w : World) :
  let k := os_getenv E "LINKUP_API_KEY" in
  let w1 := {| trace := trace w ++ [EvPrint Stdout (search_line q); EvLinkupClient k];
               next_id := next_id w |} in
  let w2 := {| trace := trace w ++ [EvPrint Stdout (search_line q); EvLinkupClient k;
                                    EvLinkupSearch q d o];
               next_id := next_id w |} in
  LinkUpSearchTool._run E q d o w =
  match LinkupClient_init E k w1 with
  | Some e => handled search_error e w1
  | None =>
      match LinkupClient_search E (mkClient k) q d o w2 with
      | Returned s => (Returned s, w2)
      | Raised e => handled search_error e w2
      end
  end.
Proof.
  exact (_run_on_cases writable E q d o w).
Qed.

(** The tool never changes the allocator, and what it adds to the history
    starts with its diagnostic line. *)
Lemma _run_world (E : Env) (q d o : string) (w : World) :
  exists rest,
    snd (LinkUpSearchTool._run E q d o w) =
      {| trace := trace w ++ EvPrint Stdout (search_line q) :: rest;
         next_id := next_id w |}
    /\ (rest = [EvLinkupClient (os_getenv E "LINKUP_API_KEY")]
        \/ rest = [EvLinkupClient (os_getenv E "LINKUP_API_KEY");
                   EvLinkupSearch q d o]).
Proof.
  rewrite _run_cases. cbv zeta. unfold handled.
  destruct (LinkupClient_init E _ _) as [e |].
  - eexists; split; [| left; reflexivity].
    destruct (isinstance_Exception e); reflexivity.
  - eexists; split; [| right; reflexivity].
    destruct (LinkupClient_search E _ q d o _) as [s | e];
      [| destruct (isinstance_Exception e)]; reflexivity.
Qed.

(* ================================================================= *)
(** ** The three stages, written out *)

Lemma eqb_succ_r (n : nat) : Nat.eqb n (S n) = false.
Proof. apply Nat.eqb_neq. lia. Qed.

Section Stages.
Variable E : Env.
Variable q : string.
Variable n : oid.

Lemma context_outputs_search (outs : list (oid * string)) :
  context_outputs (the_search_task q n) outs = [].
Proof. reflexivity. Qed.

Lemma context_outputs_analysis (o1 : string) :
  context_outputs (the_analysis_task q n) [(5 + n, o1)] = [o1].
Proof.
  unfold context_outputs. cbn. now rewrite Nat.eqb_refl.
Qed.

Lemma context_outputs_writing (o1 o2 : string) :
  context_outputs (the_writing_task q n) [(5 + n, o1); (6 + n, o2)] = [o2].
Proof.
  unfold context_outputs. cbn. now rewrite eqb_succ_r, Nat.eqb_refl.
Qed.

Lemma invoke_tool_search :
  invoke_tool E (task_tools (the_search_task q n)) (the_tool_choice q) =
  (r <- LinkUpSearchTool._run E q "standard" "structured" ;;
   emit (EvToolResult "LinkUp Search" r) ;;;
   ret (Some r)).
Proof. reflexivity. Qed.

Lemma kickoff_research_crew (w : World) :
  kickoff E (research_crew q n) w = stages E q n w.
Proof.
  unfold kickoff, stages. cbn [process research_crew tasks execute_tasks].
  set (st := the_search_task q n).
  set (at_ := the_analysis_task q n).
  set (wt := the_writing_task q n).
  mnorm. unfold execute_task at 1. mnorm.
  subst st. rewrite context_outputs_search. set (st := the_search_task q n).
  change (tool_choice st) with (Some (the_tool_choice q)).
  cbv beta iota. subst st. rewrite invoke_tool_search.
  set (st := the_search_task q n). mnorm.
  change (task_id st) with (5 + n). change (role (agent st)) with "Web Searcher".
  unfold bind at 1.
  destruct (LinkUpSearchTool._run E q "standard" "structured" _) as [[r | e] w1];
    [| reflexivity].
  mnorm. unfold bind at 1.
  destruct (agent_execute E _ _ [] (Some r) _) as [o1 | e]; [| reflexivity].
  mnorm. unfold execute_task at 1. mnorm.
  cbn [app]. subst at_. rewrite context_outputs_analysis.
  set (at_ := the_analysis_task q n).
  change (tool_choice at_) with (@None ToolChoice). cbv beta iota. mnorm.
  change (task_id at_) with (6 + n). change (role (agent at_)) with "Research Analyst".
  unfold bind at 1.
  destruct (agent_execute E _ _ [o1] None _) as [o2 | e]; [| reflexivity].
  mnorm. unfold execute_task at 1. mnorm.
  cbn [app]. subst wt. rewrite context_outputs_writing.
  set (wt := the_writing_task q n).
  change (tool_choice wt) with (@None ToolChoice). cbv beta iota. mnorm.
  change (task_id wt) with (7 + n). change (role (agent wt)) with "Technical Writer".
  unfold bind at 1.
  destruct (agent_execute E _ _ [o2] None _) as [o3 | e]; [| reflexivity].
  mnorm. reflexivity.
Qed.

End Stages.

(* ================================================================= *)
(** ** The runner, case by case *)


Lemma run_research_body_eq (E : Env) (q : string) (w : World) :
  run_research_body E q w =
  match create_research_crew E q w with
  | (Raised e, w') => (Raised e, w')
  | (Returned c, w') =>
      match kickoff E c w' with
      | (Returned r, w'') => (Returned (raw r), w'')
      | (Raised e, w'') => (Raised e, w'')
      end
  end.
Proof.
  unfold run_research_body, bind, ret.
  destruct (create_research_crew E q w) as [[c | e] w']; [| reflexivity].
  destruct (kickoff E c w') as [[r | e] w'']; reflexivity.
Qed.





(** The stages keep the allocator, add their events in order, and when they
    return, all six stage events are there and the result is the third
    answer. *)
Lemma stages_trace (E : Env) (q : string) (n : oid) (w : World) :
  exists evs o1 o2 o3 rest,
    snd (stages E q n w) = {| trace := trace w ++ evs; next_id := next_id w |}
    /\ (stage_events evs ++ rest)%list = pipeline_stages n o1 o2 o3
    /\ (forall r, fst (stages E q n w) = Returned r -> rest = [] /\ raw r = o3)
    /\ exists tail,
         evs = EvTaskStart (5 + n) "Web Searcher" [] ::
               EvPrint Stdout (search_line q) ::
               EvLinkupClient (os_getenv E "LINKUP_API_KEY") :: tail
         /\ Forall (after_client q) tail.
Proof.
  unfold stages.
  destruct (_run_world E q "standard" "structured"
              (log (EvTaskStart (5 + n) "Web Searcher" []) w)) as (rest0 & Hw & Hrest).
  destruct (LinkUpSearchTool._run E q "standard" "structured" _) as [[r | e] w1];
    cbn [snd] in Hw; subst w1.
  2:{ exists (EvTaskStart (5 + n) "Web Searcher" [] ::
              EvPrint Stdout (search_line q) :: rest0), "", "", "".
      destruct Hrest as [-> | ->];
        (eexists; split; [tidy_world; reflexivity |];
         split; [reflexivity |];
         split; [intros ?; cbn [fst]; discriminate |];
         eexists; split; [reflexivity | repeat constructor]). }
  destruct (agent_execute E _ _ [] (Some r) _) as [o1 | e].
  2:{ exists (EvTaskStart (5 + n) "Web Searcher" [] ::
              EvPrint Stdout (search_line q) :: rest0 ++
              [EvToolResult "LinkUp Search" r])%list, "", "", "".
      destruct Hrest as [-> | ->];
        (eexists; split; [tidy_world; reflexivity |];
         split; [reflexivity |];
         split; [intros ?; cbn [fst]; discriminate |];
         eexists; split; [reflexivity | repeat constructor]). }
  destruct (agent_execute E _ _ [o1] None _) as [o2 | e].
  2:{ exists (EvTaskStart (5 + n) "Web Searcher" [] ::
              EvPrint Stdout (search_line q) :: rest0 ++
              [EvToolResult "LinkUp Search" r; EvTaskEnd (5 + n) o1;
               EvTaskStart (6 + n) "Research Analyst" [o1]])%list, o1, "", "".
      destruct Hrest as [-> | ->];
        (eexists; split; [tidy_world; reflexivity |];
         split; [reflexivity |];
         split; [intros ?; cbn [fst]; discriminate |];
         eexists; split; [reflexivity | repeat constructor]). }
  destruct (agent_execute E _ _ [o2] None _) as [o3 | e].
  2:{ exists (EvTaskStart (5 + n) "Web Searcher" [] ::
              EvPrint Stdout (search_line q) :: rest0 ++
              [EvToolResult "LinkUp Search" r; EvTaskEnd (5 + n) o1;
               EvTaskStart (6 + n) "Research Analyst" [o1]; EvTaskEnd (6 + n) o2;
               EvTaskStart (7 + n) "Technical Writer" [o2]])%list, o1, o2, "".
      destruct Hrest as [-> | ->];
        (eexists; split; [tidy_world; reflexivity |];
         split; [reflexivity |];
         split; [intros ?; cbn [fst]; discriminate |];
         eexists; split; [reflexivity | repeat constructor]). }
  exists (EvTaskStart (5 + n) "Web Searcher" [] ::
          EvPrint Stdout (search_line q) :: rest0 ++
          [EvToolResult "LinkUp Search" r; EvTaskEnd (5 + n) o1;
           EvTaskStart (6 + n) "Research Analyst" [o1]; EvTaskEnd (6 + n) o2;
           EvTaskStart (7 + n) "Technical Writer" [o2]; EvTaskEnd (7 + n) o3])%list,
         o1, o2, o3, [].
  destruct Hrest as [-> | ->];
    (split; [tidy_world; reflexivity |];
     split; [reflexivity |];
     split; [intros ? [= <-]; split; reflexivity |];
     eexists; split; [reflexivity | repeat constructor]).
Qed.




(* ================================================================= *)
(** ** The search tool: error handling and diagnostics *)




(** C2, as the code has it.  On any standard output, [_run] returns the
    provider's response, as text, when the diagnostic line is written, the
    client is built and the search completes.  At each of the three points
    where the call can raise (the write of the line, the client constructor,
    the search) an exception of class [Exception] is turned into the string
    "Error during LinkUp search: <message>", which [_run] returns, and an
    exception outside the [Exception] hierarchy is raised by [_run]
    unchanged; so whatever [_run] raises is outside the hierarchy. *)
Theorem search_tool_error_handling
    (out : Stdout_stream) (E : Env) (q d o : string) (w : World) :
  let text := "[🔍 LinkUp Search] Searching for: " ++ q in
  let k := os_getenv E "LINKUP_API_KEY" in
  let w1 := {| trace := trace w ++ [EvPrint Stdout text; EvLinkupClient k];
               next_id := next_id w |} in
  let w2 := {| trace := trace w ++ [EvPrint Stdout text; EvLinkupClient k;
                                    EvLinkupSearch q d o];
               next_id := next_id w |} in
  (forall s,
      stdout_write out (text ++ newline) w = None ->
      LinkupClient_init E k w1 = None ->
      LinkupClient_search E (mkClient k) q d o w2 = Returned s ->
      LinkUpSearchTool._run_on out E q d o w = (Returned s, w2))
  /\ (forall e,
      stdout_write out (text ++ newline) w = Some e ->
      LinkUpSearchTool._run_on out E q d o w =
        match exc_class e with
        | Exception => (Returned ("Error during LinkUp search: " ++ exc_str e), w)
        | BaseExceptionOnly => (Raised e, w)
        end)
  /\ (forall e,
      stdout_write out (text ++ newline) w = None ->
      LinkupClient_init E k w1 = Some e ->
      LinkUpSearchTool._run_on out E q d o w =
        match exc_class e with
        | Exception => (Returned ("Error during LinkUp search: " ++ exc_str e), w1)
        | BaseExceptionOnly => (Raised e, w1)
        end)
  /\ (forall e,
      stdout_write out (text ++ newline) w = None ->
      LinkupClient_init E k w1 = None ->
      LinkupClient_search E (mkClient k) q d o w2 = Raised e ->
      LinkUpSearchTool._run_on out E q d o w =
        match exc_class e with
        | Exception => (Returned ("Error during LinkUp search: " ++ exc_str e), w2)
        | BaseExceptionOnly => (Raised e, w2)
        end)
  /\ (forall e,
      fst (LinkUpSearchTool._run_on out E q d o w) = Raised e ->
      exc_class e = BaseExceptionOnly).
Proof.
  cbv zeta. fold (search_line q).
  assert (Hh : forall e w0,
             handled search_error e w0 =
             match exc_class e with
             | Exception => (Returned ("Error during LinkUp search: " ++ exc_str e), w0)
             | BaseExceptionOnly => (Raised e, w0)
             end).
  { intros e w0. unfold handled, isinstance_Exception.
    destruct (exc_class e); reflexivity. }
  repeat split.
  - intros s Hp Hi Hs. rewrite _run_on_cases. cbv zeta. now rewrite Hp, Hi, Hs.
  - intros e Hp. rewrite _run_on_cases. cbv zeta. rewrite Hp. apply Hh.
  - intros e Hp Hi. rewrite _run_on_cases. cbv zeta. rewrite Hp, Hi. apply Hh.
  - intros e Hp Hi Hs. rewrite _run_on_cases. cbv zeta. rewrite Hp, Hi, Hs. apply Hh.
  - intros e. apply (try_except_escapes _ search_error).
Qed.

(** With no credential in the environment the client constructor raises,
    and the tool answers with the error string. *)
Lemma search_tool_error_handling_witness :
  LinkUpSearchTool._run_on writable env_no_credential "What is quantum entanglement?"
    "standard" "structured" world0 =
  (Returned "Error during LinkUp search: The api_key client option must be set",
   {| trace := [EvPrint Stdout (search_line "What is quantum entanglement?");
                EvLinkupClient None];
      next_id := 0 |}).
Proof.
  exact (proj1 (proj2 (proj2 (search_tool_error_handling writable env_no_credential
                                "What is quantum entanglement?" "standard" "structured"
                                world0)))
           (mkExc Exception "The api_key client option must be set")
           eq_refl eq_refl).
Defined.

(** C2, as stated, fails: an interrupt that arrives during the search is not
    an [Exception]; [_run] raises it. *)
Lemma search_tool_raises_interrupt :
  fst (LinkUpSearchTool._run env_interrupted "What is quantum entanglement?"
         "standard" "structured" world0)
    = Raised (mkExc BaseExceptionOnly "KeyboardInterrupt")
  /\ ~ (forall (E : Env) (q d o : string) (w : World),
          exists s, fst (LinkUpSearchTool._run E q d o w) = Returned s).
Proof.
  split; [reflexivity |].
  intros H.
  destruct (H env_interrupted "What is quantum entanglement?"
              "standard" "structured" world0) as [s Hs].
  discriminate Hs.
Qed.




(* ================================================================= *)
(** ** The runner: error handling *)

(** C1, as the code has it.  [run_research] returns the raw text of the
    crew's result when construction and execution complete.  An exception
    raised while the crew is built or while it runs is turned into the
    string "Error during crew execution: <message>", which [run_research]
    returns, when it is of class [Exception]; when it is outside the
    [Exception] hierarchy, [run_research] raises it unchanged.  So whatever
    [run_research] raises is outside the hierarchy. *)
Theorem run_research_error_handling (E : Env) (q : string) (w : World) :
  (forall c w1 r w',
      create_research_crew E q w = (Returned c, w1) ->
      kickoff E c w1 = (Returned r, w') ->
      run_research E q w = (Returned (raw r), w'))
  /\ (forall e w',
      create_research_crew E q w = (Raised e, w') ->
      run_research E q w =
        match exc_class e with
        | Exception => (Returned ("Error during crew execution: " ++ exc_str e), w')
        | BaseExceptionOnly => (Raised e, w')
        end)
  /\ (forall c w1 e w',
      create_research_crew E q w = (Returned c, w1) ->
      kickoff E c w1 = (Raised e, w') ->
      run_research E q w =
        match exc_class e with
        | Exception => (Returned ("Error during crew execution: " ++ exc_str e), w')
        | BaseExceptionOnly => (Raised e, w')
        end)
  /\ (forall e,
      fst (run_research E q w) = Raised e -> exc_class e = BaseExceptionOnly).
Proof.
  repeat split.
  - intros c w1 r w' Hc Hk. unfold run_research.
    apply try_except_Returned. rewrite run_research_body_eq. now rewrite Hc, Hk.
  - intros e w' Hc. unfold run_research, try_except.
    rewrite run_research_body_eq, Hc. unfold isinstance_Exception, ret.
    destruct (exc_class e); reflexivity.
  - intros c w1 e w' Hc Hk. unfold run_research, try_except.
    rewrite run_research_body_eq, Hc, Hk. unfold isinstance_Exception, ret.
    destruct (exc_class e); reflexivity.
  - intros e. apply (try_except_escapes _ crew_error).
Qed.

(** With the model endpoint unreachable the first agent call raises, and
    the runner answers with the error string. *)
Lemma run_research_error_handling_witness :
  fst (run_research env_model_down "What is quantum entanglement?" world0) =
  Returned "Error during crew execution: Connection refused".
Proof.
  pose proof
    (proj1 (proj2 (proj2 (run_research_error_handling env_model_down
                            "What is quantum entanglement?" world0)))
       (research_crew "What is quantum entanglement?" 0)
       (built "What is quantum entanglement?" world0)
       (mkExc Exception "Connection refused")
       (snd (kickoff env_model_down
               (research_crew "What is quantum entanglement?" 0)
               (built "What is quantum entanglement?" world0)))
       eq_refl eq_refl) as H.
  rewrite H. reflexivity.
Defined.

(** C1, as stated, fails: an interrupt that arrives while the crew runs is
    not an [Exception]; it passes through the runner. *)
Lemma run_research_raises_interrupt :
  fst (run_research env_interrupted "What is quantum entanglement?" world0)
    = Raised (mkExc BaseExceptionOnly "KeyboardInterrupt")
  /\ ~ (forall (E : Env) (q : string) (w : World),
          exists s, fst (run_research E q w) = Returned s).
Proof.
  split; [reflexivity |].
  intros H.
  destruct (H env_interrupted "What is quantum entanglement?" world0) as [s Hs].
  discriminate Hs.
Qed.

(* ================================================================= *)
(** ** The pipeline: construction *)

Lemma create_research_crew_ok (E : Env) (q : string) (w : World) :
  constructors_succeed E ->
  create_research_crew E q w = (Returned (research_crew q (next_id w)), built q w).
Proof.
  intros Hok.
  unfold create_research_crew, LinkUpSearchTool.__init__, get_llm_client,
    new_Agent, new_Task, new_Crew.
  do 9 (mnorm; rewrite bind_new, Hok).
  mnorm. unfold ret, built. tidy_world. reflexivity.
Qed.

Lemma create_research_crew_Returned (E : Env) (q : string) (w w' : World) (c : Crew) :
  create_research_crew E q w = (Returned c, w') ->
  c = research_crew q (next_id w) /\ w' = built q w.
Proof.
  destruct (create_research_crew_cases E q w) as [(e & k & _ & Hc) | Hc];
    rewrite Hc; [discriminate |].
  intros [= <- <-]. split; reflexivity.
Qed.

(** C6, as the code has it.  Of the three tasks of a crew, exactly the last
    two carry a list of upstream tasks: the analysis task lists the search
    task, the writing task lists the analysis task, and the search task,
    which comes first, has none. *)
Theorem upstream_lists_of_the_tasks (E : Env) (q : string) (w w' : World) (c : Crew) :
  create_research_crew E q w = (Returned c, w') ->
  exists t1 t2 t3,
    tasks c = [t1; t2; t3]
    /\ context t1 = None
    /\ context t2 = Some [t1]
    /\ context t3 = Some [t2]
    /\ map has_context (tasks c) = [false; true; true].
Proof.
  intros Hc. apply create_research_crew_Returned in Hc. destruct Hc as [-> _].
  exists (the_search_task q (next_id w)), (the_analysis_task q (next_id w)),
         (the_writing_task q (next_id w)).
  repeat split.
Qed.

Lemma upstream_lists_of_the_tasks_witness :
  exists t1 t2 t3,
    tasks (research_crew "What is quantum entanglement?" 0) = [t1; t2; t3]
    /\ context t1 = None
    /\ context t2 = Some [t1]
    /\ context t3 = Some [t2]
    /\ map has_context (tasks (research_crew "What is quantum entanglement?" 0))
       = [false; true; true].
Proof.
  apply (upstream_lists_of_the_tasks env_ok "What is quantum entanglement?" world0
           (w' := built "What is quantum entanglement?" world0)).
  reflexivity.
Defined.

(** C6, as stated, fails: in the crew built for a query the first task has
    no upstream list and the third has one. *)
Lemma first_two_tasks_do_not_carry_the_lists :
  exists c,
    fst (create_research_crew env_ok "What is quantum entanglement?" world0) = Returned c
    /\ map has_context (tasks c) = [false; true; true]
    /\ map has_context (tasks c) <> [true; true; false].
Proof.
  exists (research_crew "What is quantum entanglement?" 0).
  split; [reflexivity |]. split; [reflexivity | discriminate].
Qed.

(* ================================================================= *)
(** ** The pipeline: execution *)



(** C3, as the code has it.  When the search call raises an [Exception],
    the tool hands "Error during LinkUp search: <message>" to the search
    stage as its tool result, and the run goes on: with constructors and
    agents that do not raise, the analysis and writing stages follow, and
    the runner returns the answer of the writing agent, whatever that text
    is. *)
Theorem search_failure_is_passed_on (E : Env) (q : string) (w : World) (e : PyExc) :
  constructors_succeed E ->
  (forall k w', LinkupClient_init E k w' = None) ->
  (forall c w', LinkupClient_search E c q "standard" "structured" w' = Raised e) ->
  exc_class e = Exception ->
  agents_answer E ->
  exists o1 o2 o3,
    run_research E q w =
      (Returned o3,
       {| trace := trace w ++ construction_events q ++
            [ EvTaskStart (5 + next_id w) "Web Searcher" [];
              EvPrint Stdout ("[🔍 LinkUp Search] Searching for: " ++ q);
              EvLinkupClient (os_getenv E "LINKUP_API_KEY");
              EvLinkupSearch q "standard" "structured";
              EvToolResult "LinkUp Search" ("Error during LinkUp search: " ++ exc_str e);
              EvTaskEnd (5 + next_id w) o1;
              EvTaskStart (6 + next_id w) "Research Analyst" [o1];
              EvTaskEnd (6 + next_id w) o2;
              EvTaskStart (7 + next_id w) "Technical Writer" [o2];
              EvTaskEnd (7 + next_id w) o3 ];
          next_id := 9 + next_id w |})
    /\ (exists w1,
          agent_execute E (the_web_searcher (next_id w)) (the_search_task q (next_id w))
            [] (Some ("Error during LinkUp search: " ++ exc_str e)) w1 = Returned o1)
    /\ (exists w3,
          agent_execute E (the_technical_writer (next_id w))
            (the_writing_task q (next_id w)) [o2] None w3 = Returned o3).
Proof.
  intros Hctor Hinit Hsearch Hexc Hans.
  unfold run_research.
  assert (Hbody : exists o1 o2 o3 w',
             run_research_body E q w = (Returned o3, w')
             /\ w' = {| trace := trace w ++ construction_events q ++
                          [ EvTaskStart (5 + next_id w) "Web Searcher" [];
                            EvPrint Stdout (search_line q);
                            EvLinkupClient (os_getenv E "LINKUP_API_KEY");
                            EvLinkupSearch q "standard" "structured";
                            EvToolResult "LinkUp Search" (search_error e);
                            EvTaskEnd (5 + next_id w) o1;
                            EvTaskStart (6 + next_id w) "Research Analyst" [o1];
                            EvTaskEnd (6 + next_id w) o2;
                            EvTaskStart (7 + next_id w) "Technical Writer" [o2];
                            EvTaskEnd (7 + next_id w) o3 ];
                        next_id := 9 + next_id w |}
             /\ (exists w1,
                   agent_execute E (the_web_searcher (next_id w))
                     (the_search_task q (next_id w)) [] (Some (search_error e)) w1
                   = Returned o1)
             /\ (exists w3,
                   agent_execute E (the_technical_writer (next_id w))
                     (the_writing_task q (next_id w)) [o2] None w3 = Returned o3)).
  { rewrite run_research_body_eq, (create_research_crew_ok q w Hctor),
      kickoff_research_crew.
    unfold stages. rewrite _run_cases. cbv zeta.
    rewrite Hinit, Hsearch. unfold handled, isinstance_Exception. rewrite Hexc.
    match goal with
    | |- context [agent_execute E ?a ?t ?c ?r ?w0] =>
        destruct (Hans a t c r w0) as [o1 H1]; rewrite H1
    end.
    match goal with
    | |- context [agent_execute E ?a ?t [o1] ?r ?w0] =>
        destruct (Hans a t [o1] r w0) as [o2 H2]; rewrite H2
    end.
    match goal with
    | |- context [agent_execute E ?a ?t [o2] ?r ?w0] =>
        destruct (Hans a t [o2] r w0) as [o3 H3]; rewrite H3
    end.
    exists o1, o2, o3. eexists. split; [reflexivity |].
    split; [unfold built; tidy_world; rewrite <- ?app_assoc; reflexivity |].
    split; eexists; eassumption. }
  destruct Hbody as (o1 & o2 & o3 & w' & Hb & -> & H1 & H3).
  exists o1, o2, o3. split; [| split; assumption].
  apply try_except_Returned. exact Hb.
Qed.

Lemma search_failure_is_passed_on_witness :
  exists o1 o2,
    fst (run_research env_search_down "What is quantum entanglement?" world0)
    = Returned "Entanglement links the states of two particles."
    /\ In (EvToolResult "LinkUp Search" "Error during LinkUp search: 401 Unauthorized")
          (trace (snd (run_research env_search_down "What is quantum entanglement?" world0)))
    /\ In (EvTaskStart 6 "Research Analyst" [o1])
          (trace (snd (run_research env_search_down "What is quantum entanglement?" world0)))
    /\ In (EvTaskStart 7 "Technical Writer" [o2])
          (trace (snd (run_research env_search_down "What is quantum entanglement?" world0))).
Proof.
  destruct (search_failure_is_passed_on (E := env_search_down)
              "What is quantum entanglement?" world0
              (e := mkExc Exception "401 Unauthorized"))
    as (o1 & o2 & o3 & Hrun & _ & [w3 H3]).
  - intros c w. reflexivity.
  - intros k w. reflexivity.
  - intros c w. reflexivity.
  - reflexivity.
  - intros a t ctx r w. eexists. reflexivity.
  - exists o1, o2. rewrite Hrun. cbn [fst snd trace].
    injection H3 as <-.
    split; [reflexivity |].
    split; [apply in_or_app; right; apply in_or_app; right; cbn; tauto |].
    split; apply in_or_app; right; apply in_or_app; right; cbn; tauto.
Defined.

(** C3, as stated, fails: the search is rejected, the tool result is the
    error string, and the runner still returns the writing agent's answer,
    in which "Error during" does not occur. *)
Lemma search_failure_is_not_terminal :
  fst (run_research env_search_down "What is quantum entanglement?" world0)
    = Returned "Entanglement links the states of two particles."
  /\ In (EvToolResult "LinkUp Search" "Error during LinkUp search: 401 Unauthorized")
        (trace (snd (run_research env_search_down "What is quantum entanglement?" world0)))
  /\ contains "Error during" "Entanglement links the states of two particles." = false.
Proof.
  split; [reflexivity |]. split; [| reflexivity].
  cbn. do 13 right. left. reflexivity.
Qed.

(* ================================================================= *)
(** ** The tool server *)

(** C8.  The server registers one operation, named [crew_research], with
    the single required string parameter [query] and a string result; the
    operation is the runner itself: same result and same effects for every
    query, in every environment and history. *)
Theorem server_exposes_crew_research :
  operations mcp = [crew_research_op]
  /\ length (operations mcp) = 1
  /\ map op_name (operations mcp) = ["crew_research"]
  /\ op_parameters crew_research_op =
       [ {| param_name := "query"; annotation := PyStr; required := true |} ]
  /\ op_returns crew_research_op = PyStr
  /\ (forall (E : Env) (query : string) (w : World),
        op_fn crew_research_op E query w = run_research E query w)
  /\ (forall (E : Env) (query : string) (w : World),
        crew_research E query w = run_research E query w).
Proof. repeat split. Qed.





(* ================================================================= *)
(** ** Independence of calls *)





(* ================================================================= *)
(** ** More about the builder *)

(** X1.  The three agents of a crew are the Web Searcher, the Research
    Analyst and the Technical Writer, in that order; the first two may
    delegate, the writer may not; only the Web Searcher has a tool; and all
    three hold one and the same model client, the one [get_llm_client]
    built, configured for the local tinyllama endpoint whatever the
    query. *)
Theorem agents_share_one_model_client
    (E : Env) (query : string) (w w' : World) (c : Crew) :
  create_research_crew E query w = (Returned c, w') ->
  exists client,
    map role (agents c) = ["Web Searcher"; "Research Analyst"; "Technical Writer"]
    /\ map allow_delegation (agents c) = [true; true; false]
    /\ map (fun a => length (agent_tools a)) (agents c) = [1; 0; 0]
    /\ map agent_llm (agents c) = [client; client; client]
    /\ llm_id client = 1 + next_id w
    /\ model client = "ollama/tinyllama:1.1b-chat"
    /\ base_url client = "http://localhost:11434"
    /\ api_key client = "ollama".
Proof.
  intros Hc. apply create_research_crew_Returned in Hc. destruct Hc as [-> _].
  exists (the_client (next_id w)). repeat split.
Qed.

Lemma agents_share_one_model_client_witness :
  exists client,
    map role (agents (research_crew "What is quantum entanglement?" 0))
      = ["Web Searcher"; "Research Analyst"; "Technical Writer"]
    /\ map allow_delegation (agents (research_crew "What is quantum entanglement?" 0))
       = [true; true; false]
    /\ map (fun a => length (agent_tools a))
           (agents (research_crew "What is quantum entanglement?" 0)) = [1; 0; 0]
    /\ map agent_llm (agents (research_crew "What is quantum entanglement?" 0))
       = [client; client; client]
    /\ llm_id client = 1
    /\ model client = "ollama/tinyllama:1.1b-chat"
    /\ base_url client = "http://localhost:11434"
    /\ api_key client = "ollama".
Proof.
  exact (@agents_share_one_model_client env_ok "What is quantum entanglement?"
           world0 (built "What is quantum entanglement?" world0)
           (research_crew "What is quantum entanglement?" 0) eq_refl).
Defined.

(** X2.  In a crew the i-th task is bound to the i-th agent; the tool of the
    search task is the very object the Web Searcher holds; the three agents
    are three different objects, and so are the three tasks; and the crew
    runs its tasks sequentially. *)
Theorem tasks_are_bound_to_the_agents
    (E : Env) (query : string) (w w' : World) (c : Crew) :
  create_research_crew E query w = (Returned c, w') ->
  map agent (tasks c) = agents c
  /\ (exists web_searcher search_task,
        hd_error (agents c) = Some web_searcher
        /\ hd_error (tasks c) = Some search_task
        /\ task_tools search_task = agent_tools web_searcher
        /\ map tool_id (task_tools search_task) = [next_id w])
  /\ NoDup (map agent_id (agents c))
  /\ NoDup (map task_id (tasks c))
  /\ length (agents c) = 3
  /\ length (tasks c) = 3
  /\ process c = sequential.
Proof.
  intros Hc. apply create_research_crew_Returned in Hc. destruct Hc as [-> _].
  split; [reflexivity |].
  split; [exists (the_web_searcher (next_id w)), (the_search_task query (next_id w));
          repeat split |].
  split; [| split; [| repeat split]].
  - cbn. repeat constructor; cbn; lia.
  - cbn. repeat constructor; cbn; lia.
Qed.

Lemma tasks_are_bound_to_the_agents_witness :
  map agent (tasks (research_crew "What is quantum entanglement?" 0))
  = agents (research_crew "What is quantum entanglement?" 0).
Proof.
  exact (proj1 (@tasks_are_bound_to_the_agents env_ok "What is quantum entanglement?"
                  world0 (built "What is quantum entanglement?" world0)
                  (research_crew "What is quantum entanglement?" 0) eq_refl)).
Defined.

(** X3.  The query reaches the search task only.  Two crews built from the
    same state for two queries have the same agents, the same object
    identities, the same task-to-agent binding, the same expected outputs
    and, but for the search task, the same descriptions and no tool
    choice. *)
Theorem query_reaches_only_the_search_task
    (E : Env) (q1 q2 : string) (w w1 w2 : World) (c1 c2 : Crew) :
  create_research_crew E q1 w = (Returned c1, w1) ->
  create_research_crew E q2 w = (Returned c2, w2) ->
  agents c1 = agents c2
  /\ crew_id c1 = crew_id c2
  /\ map task_id (tasks c1) = map task_id (tasks c2)
  /\ map agent (tasks c1) = map agent (tasks c2)
  /\ map expected_output (tasks c1) = map expected_output (tasks c2)
  /\ map task_tools (tasks c1) = map task_tools (tasks c2)
  /\ tl (map task_description (tasks c1)) = tl (map task_description (tasks c2))
  /\ tl (map tool_choice (tasks c1)) = [None; None]
  /\ tl (map tool_choice (tasks c2)) = [None; None]
  /\ next_id w1 = next_id w2.
Proof.
  intros H1 H2.
  apply create_research_crew_Returned in H1. destruct H1 as [-> ->].
  apply create_research_crew_Returned in H2. destruct H2 as [-> ->].
  repeat split.
Qed.

Lemma query_reaches_only_the_search_task_witness :
  agents (research_crew "What is quantum entanglement?" 0)
  = agents (research_crew "" 0).
Proof.
  exact (proj1 (@query_reaches_only_the_search_task env_ok
                  "What is quantum entanglement?" "" world0
                  (built "What is quantum entanglement?" world0) (built "" world0)
                  (research_crew "What is quantum entanglement?" 0)
                  (research_crew "" 0) eq_refl eq_refl)).
Defined.

(** X4.  A constructor that raises stops the run on the spot.  The history
    of the run is then the constructor calls up to the failing one, in
    source order, and nothing else: no stage starts, nothing is printed and
    the search provider is not contacted; the objects built before the
    failure stay allocated. *)
Theorem failed_construction_stops_the_run
    (E : Env) (query : string) (w w' : World) (e : PyExc) :
  create_research_crew E query w = (Raised e, w') ->
  exists k,
    k < 9
    /\ snd (run_research E query w) =
         {| trace := trace w ++ map EvConstruct (firstn (S k) (construction_calls query));
            next_id := k + next_id w |}
    /\ fst (run_research E query w) =
         (if isinstance_Exception e
          then Returned ("Error during crew execution: " ++ exc_str e)
          else Raised e).
Proof.
  intros Hc.
  destruct (create_research_crew_cases E query w) as [(e' & k & Hk & Hc') | Hc'];
    rewrite Hc' in Hc; [| discriminate].
  injection Hc as -> <-.
  exists k. split; [exact Hk |].
  unfold run_research, try_except. rewrite run_research_body_eq, Hc'.
  unfold construction_events. rewrite firstn_map.
  destruct (isinstance_Exception e); split; reflexivity.
Qed.

Lemma failed_construction_stops_the_run_witness :
  exists k,
    k < 9
    /\ snd (run_research env_analyst_rejected "What is quantum entanglement?" world0) =
         {| trace := [] ++ map EvConstruct
                             (firstn (S k)
                                (construction_calls "What is quantum entanglement?"));
            next_id := k + 0 |}
    /\ fst (run_research env_analyst_rejected "What is quantum entanglement?" world0) =
         Returned "Error during crew execution: 1 validation error for Agent".
Proof.
  exact (@failed_construction_stops_the_run env_analyst_rejected
           "What is quantum entanglement?" world0
           {| trace := map EvConstruct
                         (firstn 4 (construction_calls "What is quantum entanglement?"));
              next_id := 3 |}
           (mkExc Exception "1 validation error for Agent") eq_refl).
Defined.

(* ================================================================= *)
(** ** More about the search tool *)

(** X5.  [_run] searches exactly when it could build a client, and checks
    nothing itself.  When the client constructor raises, whatever the
    exception, the history gains the diagnostic line and the constructor
    call and the provider is not searched; when the client is built, the
    search goes out once, with the query, depth and output type exactly as
    [_run] received them, whatever strings they are.  In no case does [_run]
    create an object of the pipeline. *)
Theorem search_needs_a_client (E : Env) (q d o : string) (w : World) :
  let k := os_getenv E "LINKUP_API_KEY" in
  let line := EvPrint Stdout ("[🔍 LinkUp Search] Searching for: " ++ q) in
  let w1 := {| trace := trace w ++ [line; EvLinkupClient k]; next_id := next_id w |} in
  (forall e,
      LinkupClient_init E k w1 = Some e ->
      snd (LinkUpSearchTool._run E q d o w) = w1)
  /\ (LinkupClient_init E k w1 = None ->
      snd (LinkUpSearchTool._run E q d o w) =
        {| trace := trace w ++ [line; EvLinkupClient k; EvLinkupSearch q d o];
           next_id := next_id w |})
  /\ next_id (snd (LinkUpSearchTool._run E q d o w)) = next_id w.
Proof.
  cbv zeta. rewrite _run_cases. cbv zeta. unfold handled, search_line.
  repeat split.
  - intros e ->. destruct (isinstance_Exception e); reflexivity.
  - intros ->. destruct (LinkupClient_search E _ q d o _) as [s | e];
      [| destruct (isinstance_Exception e)]; reflexivity.
  - destruct (LinkupClient_init E _ _) as [e |].
    + destruct (isinstance_Exception e); reflexivity.
    + destruct (LinkupClient_search E _ q d o _) as [s | e];
        [| destruct (isinstance_Exception e)]; reflexivity.
Qed.

Lemma search_needs_a_client_witness :
  snd (LinkUpSearchTool._run env_ok "What is quantum entanglement?" "bottomless" "xml"
         world0) =
  {| trace := [EvPrint Stdout "[🔍 LinkUp Search] Searching for: What is quantum entanglement?";
               EvLinkupClient (Some "secret");
               EvLinkupSearch "What is quantum entanglement?" "bottomless" "xml"];
     next_id := 0 |}.
Proof.
  exact (proj1 (proj2 (search_needs_a_client env_ok "What is quantum entanglement?"
                         "bottomless" "xml" world0)) eq_refl).
Defined.

(* ================================================================= *)
(** ** More about the runner *)

(** X6.  An exception outside the [Exception] hierarchy raised by the search
    call crosses both handlers, the tool's and the runner's, unchanged: with
    constructors that complete and a client that is built, the runner raises
    it, the search stage is left unfinished, and the analysis and writing
    stages never start. *)
Theorem interrupt_crosses_both_handlers (E : Env) (q : string) (w : World) (e : PyExc) :
  constructors_succeed E ->
  (forall k w', LinkupClient_init E k w' = None) ->
  (forall c w', LinkupClient_search E c q "standard" "structured" w' = Raised e) ->
  exc_class e = BaseExceptionOnly ->
  run_research E q w =
    (Raised e,
     {| trace := trace w ++ construction_events q ++
          [ EvTaskStart (5 + next_id w) "Web Searcher" [];
            EvPrint Stdout ("[🔍 LinkUp Search] Searching for: " ++ q);
            EvLinkupClient (os_getenv E "LINKUP_API_KEY");
            EvLinkupSearch q "standard" "structured" ];
        next_id := 9 + next_id w |}).
Proof.
  intros Hctor Hinit Hsearch Hexc.
  unfold run_research.
  erewrite try_except_BaseException; [reflexivity | | exact Hexc].
  rewrite run_research_body_eq, (create_research_crew_ok q w Hctor),
    kickoff_research_crew.
  unfold stages. rewrite _run_cases. cbv zeta.
  rewrite Hinit, Hsearch. unfold handled, isinstance_Exception. rewrite Hexc.
  unfold built, search_line. tidy_world. rewrite <- ?app_assoc. reflexivity.
Qed.

Lemma interrupt_crosses_both_handlers_witness :
  fst (run_research env_interrupted "What is quantum entanglement?" world0)
  = Raised (mkExc BaseExceptionOnly "KeyboardInterrupt").
Proof.
  rewrite (@interrupt_crosses_both_handlers env_interrupted
             "What is quantum entanglement?" world0
             (mkExc BaseExceptionOnly "KeyboardInterrupt")
             (fun _ _ => eq_refl) (fun _ _ => eq_refl) (fun _ _ => eq_refl) eq_refl).
  reflexivity.
Defined.

Lemma stages_unfold (E : Env) (q : string) (n : oid) (w : World) :
  stages E q n w =
  match LinkUpSearchTool._run E q "standard" "structured"
          (log (EvTaskStart (5 + n) "Web Searcher" []) w) with
  | (Raised e, w1) => (Raised e, w1)
  | (Returned r, w1) => stages_after_tool E q n r w1
  end.
Proof. reflexivity. Qed.

Lemma stages_after_tool_returns (E : Env) (q : string) (n : oid) (r : string)
    (w1 : World) :
  agents_answer E ->
  exists out, fst (stages_after_tool E q n r w1) = Returned out.
Proof.
  intros Hans. unfold stages_after_tool. cbv zeta.
  match goal with
  | |- context [agent_execute E ?a ?t [] ?x ?w0] =>
      destruct (Hans a t [] x w0) as [o1 H1]; rewrite H1
  end.
  match goal with
  | |- context [agent_execute E ?a ?t [o1] ?x ?w0] =>
      destruct (Hans a t [o1] x w0) as [o2 H2]; rewrite H2
  end.
  match goal with
  | |- context [agent_execute E ?a ?t [o2] ?x ?w0] =>
      destruct (Hans a t [o2] x w0) as [o3 H3]; rewrite H3
  end.
  eexists. reflexivity.
Qed.

(** X7.  Failures of the search provider alone never stop the crew.  With
    constructors and agents that do not raise, and a provider that fails
    only with exceptions of class [Exception], the body of the runner
    returns: all three stages run, in order, and the result is the output of
    the writing stage, so the runner's own handler is not entered. *)
Theorem linkup_failures_never_stop_the_crew (E : Env) (q : string) (w : World) :
  constructors_succeed E ->
  agents_answer E ->
  linkup_raises_only_Exception E ->
  exists o1 o2 o3 evs w',
    run_research_body E q w = (Returned o3, w')
    /\ run_research E q w = (Returned o3, w')
    /\ trace w' = (trace w ++ construction_events q ++ evs)%list
    /\ stage_events evs = pipeline_stages (next_id w) o1 o2 o3
    /\ next_id w' = 9 + next_id w.
Proof.
  intros Hctor Hans [Hinit Hsearch].
  destruct (stages_trace E q (next_id w) (built q w))
    as (evs & o1 & o2 & o3 & rest & Hw & Hst & Hret & _).
  assert (Hstages : exists r, fst (stages E q (next_id w) (built q w)) = Returned r).
  { rewrite stages_unfold, _run_cases. cbv zeta. unfold handled, isinstance_Exception.
    destruct (LinkupClient_init E _ _) as [e |] eqn:Hi.
    - rewrite (Hinit _ _ _ Hi). now apply stages_after_tool_returns.
    - destruct (LinkupClient_search E _ q _ _ _) as [s | e] eqn:Hs.
      + now apply stages_after_tool_returns.
      + rewrite (Hsearch _ _ _ _ _ _ Hs). now apply stages_after_tool_returns. }
  destruct Hstages as [r Hr]. destruct (Hret r Hr) as [-> <-].
  rewrite app_nil_r in Hst.
  assert (Hb : run_research_body E q w = (Returned (raw r), snd (stages E q (next_id w) (built q w)))).
  { rewrite run_research_body_eq, (create_research_crew_ok q w Hctor),
      kickoff_research_crew.
    destruct (stages E q (next_id w) (built q w)) as [[r' | e] w'']; cbn [fst snd] in *;
      [injection Hr as -> | discriminate]. reflexivity. }
  exists o1, o2, (raw r), evs. eexists.
  split; [exact Hb |].
  split; [unfold run_research; apply try_except_Returned; exact Hb |].
  rewrite Hw. cbn [trace next_id built].
  split; [now rewrite <- app_assoc |]. split; [exact Hst | reflexivity].
Qed.

Lemma linkup_failures_never_stop_the_crew_witness :
  exists o1 o2 o3 evs w',
    run_research_body env_search_down "What is quantum entanglement?" world0
      = (Returned o3, w')
    /\ run_research env_search_down "What is quantum entanglement?" world0
      = (Returned o3, w')
    /\ trace w' =
         (trace world0 ++ construction_events "What is quantum entanglement?" ++ evs)%list
    /\ stage_events evs = pipeline_stages (next_id world0) o1 o2 o3
    /\ next_id w' = 9 + next_id world0.
Proof.
  apply (@linkup_failures_never_stop_the_crew env_search_down
           "What is quantum entanglement?" world0).
  - intros c w. reflexivity.
  - intros a t ctx r w. eexists. reflexivity.
  - split.
    + intros k w e H. discriminate H.
    + intros c q d o w e H. injection H as <-. reflexivity.
Defined.

(** X8.  A caller cannot tell a failed run from an answer by looking at the
    result.  For every query and every message, the run in which the model
    endpoint fails with that message and the run in which the agents answer
    with the text "Error during crew execution: <message>" return the same
    string, the first through the runner's handler, the second as the
    ordinary output of the writing stage. *)
Theorem error_text_is_not_told_apart (q m : string) (w : World) :
  exists e w1 w2,
    run_research_body (env_agents_fail m) q w = (Raised e, w1)
    /\ exc_class e = Exception
    /\ exc_str e = m
    /\ run_research_body (env_agents_say ("Error during crew execution: " ++ m)) q w
       = (Returned ("Error during crew execution: " ++ m), w2)
    /\ fst (run_research (env_agents_fail m) q w)
       = Returned ("Error during crew execution: " ++ m)
    /\ fst (run_research (env_agents_say ("Error during crew execution: " ++ m)) q w)
       = Returned ("Error during crew execution: " ++ m).
Proof.
  assert (Hf : constructors_succeed (env_agents_fail m)) by (intros c w0; reflexivity).
  assert (Hs : constructors_succeed
                 (env_agents_say ("Error during crew execution: " ++ m)))
    by (intros c w0; reflexivity).
  exists (mkExc Exception m). do 2 eexists.
  assert (Hbf : run_research_body (env_agents_fail m) q w =
                (Raised (mkExc Exception m),
                 snd (stages (env_agents_fail m) q (next_id w) (built q w)))).
  { rewrite run_research_body_eq, (create_research_crew_ok q w Hf),
      kickoff_research_crew.
    rewrite stages_unfold, _run_cases. reflexivity. }
  assert (Hbs : run_research_body
                  (env_agents_say ("Error during crew execution: " ++ m)) q w =
                (Returned ("Error during crew execution: " ++ m),
                 snd (stages (env_agents_say ("Error during crew execution: " ++ m))
                        q (next_id w) (built q w)))).
  { rewrite run_research_body_eq, (create_research_crew_ok q w Hs),
      kickoff_research_crew.
    rewrite stages_unfold, _run_cases. reflexivity. }
  split; [exact Hbf |]. split; [reflexivity |]. split; [reflexivity |].
  split; [exact Hbs |].
  unfold run_research, try_except. rewrite Hbf, Hbs. split; reflexivity.
Qed.


